(** * pyb_utils: a thin layer over the PyBullet binding

    A shallow embedding of [pyb_utils/named_tuples.py] and
    [pyb_utils/robots.py].  The physics engine itself is an external
    collaborator: it appears here as a record of query routines
    ([Engine]), and every statement is proved for an arbitrary engine.
    Python exceptions are carried by the [result] type; commands sent to
    the engine are collected as a list of [Command]s.  Where successive
    calls matter, module [Live] threads an engine state through the
    calls. *)

From Stdlib Require Import ZArith List String Bool Lia PrimFloat.
Import ListNotations.
Open Scope Z_scope.

(** ** Python values, exceptions and sequence operations *)

Module Py.

Inductive exn : Type :=
| ValueError (msg : string)
| IndexError (msg : string)
| TypeError (msg : string)
| AttributeError (msg : string)
| EngineError (msg : string).      (* pybullet.error *)

Inductive result (A : Type) : Type :=
| Ok (a : A)
| Raise (e : exn).
Arguments Ok {A} a.
Arguments Raise {A} e.

Definition bind {A B} (m : result A) (k : A -> result B) : result B :=
  match m with
  | Ok a => k a
  | Raise e => Raise e
  end.

Definition is_ok {A} (m : result A) : bool :=
  match m with Ok _ => true | Raise _ => false end.

(** Values the engine hands back inside its positional tuples. *)
#[warnings="-register-all"]
Inductive pyval : Type :=
| PyInt (z : Z)
| PyFloat (x : float)
| PyBytes (s : string)
| PyTuple (items : list pyval).

(** [range(n)]: empty when [n <= 0]. *)
Definition range (n : Z) : list Z := map Z.of_nat (seq 0 (Z.to_nat n)).

Definition len {A} (l : list A) : Z := Z.of_nat (List.length l).

(** [l[i]] with Python's negative indices; out of range raises
    [IndexError]. *)
Definition getitem {A} (l : list A) (i : Z) : result A :=
  let j := if i <? 0 then i + len l else i in
  if (j <? 0) || (len l <=? j)
  then Raise (IndexError "list index out of range")
  else match nth_error l (Z.to_nat j) with
       | Some x => Ok x
       | None => Raise (IndexError "list index out of range")
       end.

(** [zip(a, b)] stops at the shorter argument. *)
Definition zip {A B} (a : list A) (b : list B) : list (A * B) := combine a b.

(** [[f(x) for x in l]] where [f] may raise: left to right, the first
    exception wins. *)
Fixpoint comprehension {A B} (f : A -> result B) (l : list A)
  : result (list B) :=
  match l with
  | [] => Ok []
  | x :: rest =>
      bind (f x) (fun y =>
      bind (comprehension f rest) (fun ys => Ok (y :: ys)))
  end.

End Py.
Import Py.

Notation "x <- m ;; k" := (Py.bind m (fun x => k))
  (at level 61, m at next level, right associativity).

(** ** numpy: vectors, matrices, [zeros], [zeros_like], [vstack] *)

Module Np.

Definition vec := list float.
Definition matrix := list vec.            (* a sequence of rows *)

Definition zeros (n : nat) : vec := repeat 0%float n.

Definition zeros_like (q : vec) : vec := map (fun _ => 0%float) q.

(** [np.atleast_2d] on a nested sequence: an empty sequence becomes one
    empty row. *)
Definition atleast_2d (m : matrix) : matrix :=
  match m with
  | [] => [[]]
  | _ => m
  end.

Definition ncols (m : matrix) : nat :=
  match m with
  | [] => 0%nat
  | row :: _ => List.length row
  end.

Definition rectangular (m : matrix) : bool :=
  forallb (fun row => Nat.eqb (List.length row) (ncols m)) m.

(** [m.shape] of a rectangular matrix. *)
Definition shape (m : matrix) : nat * nat := (List.length m, ncols m).

(** [np.vstack((a, b))]: the rows of [a] followed by the rows of [b];
    the column counts must agree. *)
Definition vstack (a b : matrix) : result matrix :=
  let a2 := atleast_2d a in
  let b2 := atleast_2d b in
  if rectangular a2 && rectangular b2 && Nat.eqb (ncols a2) (ncols b2)
  then Ok (a2 ++ b2)
  else Raise (ValueError
    "all the input array dimensions except for the concatenation axis must match exactly").

End Np.
Import Np.

(** ** The external engine (the [pybullet] module) *)

Module Pyb.

(** One entry of [pyb.getJointStates]: a 4-tuple, position first and
    velocity second. *)
Record JointState : Type := {
  jointPosition : float;                 (* state[0] *)
  jointVelocity : float;                 (* state[1] *)
  jointReactionForces : vec;             (* state[2] *)
  appliedJointMotorTorque : float        (* state[3] *)
}.

(** The result of [pyb.getLinkState], with the engine's field names in
    the engine's tuple order.  Fields 0 and 1 are the pose of the link's
    center of mass in the world frame, fields 4 and 5 the pose of the
    URDF link frame in the world frame; the two velocities are present
    only when [computeLinkVelocity] is set. *)
Record LinkState : Type := {
  linkWorldPosition : vec;               (* 0: CoM position, world *)
  linkWorldOrientation : vec;            (* 1: CoM orientation, xyzw *)
  localInertialFramePosition : vec;      (* 2 *)
  localInertialFrameOrientation : vec;   (* 3 *)
  worldLinkFramePosition : vec;          (* 4: URDF link frame, world *)
  worldLinkFrameOrientation : vec;       (* 5: URDF link frame, xyzw *)
  worldLinkVelocities : option (vec * vec) (* 6, 7 *)
}.

(** The positional tuple the binding returns for a link state. *)
Definition LinkState_tuple (s : LinkState) : list vec :=
  [ linkWorldPosition s; linkWorldOrientation s;
    localInertialFramePosition s; localInertialFrameOrientation s;
    worldLinkFramePosition s; worldLinkFrameOrientation s ]
  ++ match worldLinkVelocities s with
     | Some (lin, ang) => [lin; ang]
     | None => []
     end.

(** The part of a joint-info tuple this layer reads: the index and the
    name (a byte string). *)
Record RawJointInfo : Type := {
  raw_jointIndex : Z;
  raw_jointName : string
}.

Inductive ControlMode : Type :=
| VELOCITY_CONTROL
| TORQUE_CONTROL
| POSITION_CONTROL.

(** A snapshot of the engine: what each query routine answers. *)
Record Engine : Type := {
  getNumJoints : Z -> result Z;
  getJointInfo : Z -> Z -> result RawJointInfo;
  getJointStates : Z -> list Z -> result (list JointState);
  (* uid, link, computeLinkVelocity, computeForwardKinematics *)
  getLinkState : Z -> Z -> bool -> bool -> result LinkState;
  (* uid, link, local offset, positions, velocities, accelerations *)
  calculateJacobian :
    Z -> Z -> vec -> vec -> vec -> vec -> result (matrix * matrix);
  getDynamicsInfo : Z -> Z -> Z -> result (list pyval);
  getContactPoints : Z -> Z -> Z -> Z -> Z -> result (list (list pyval));
  getClosestPoints :
    Z -> Z -> float -> Z -> Z -> Z -> result (list (list pyval))
}.

(** The commands this layer sends to the engine. *)
Inductive Command : Type :=
| resetJointState (uid idx : Z) (angle : float)
| setJointMotorControlArray (uid : Z) (jointIndices : list Z)
    (controlMode : ControlMode) (targetVelocities : vec).

(** The joints a command names. *)
Definition command_joints (c : Command) : list Z :=
  match c with
  | resetJointState _ idx _ => [idx]
  | setJointMotorControlArray _ idxs _ _ => idxs
  end.

(** The same engine with another answer to joint-state queries: the
    body model and every other routine are left as they are. *)
Definition with_joint_states (e : Engine)
    (f : Z -> list Z -> result (list JointState)) : Engine :=
  {| getNumJoints := getNumJoints e;
     getJointInfo := getJointInfo e;
     getJointStates := f;
     getLinkState := getLinkState e;
     calculateJacobian := calculateJacobian e;
     getDynamicsInfo := getDynamicsInfo e;
     getContactPoints := getContactPoints e;
     getClosestPoints := getClosestPoints e |}.

End Pyb.

(** ** named_tuples.py *)

Module NamedTuples.

(** A class made by [collections.namedtuple]: a name and the ordered
    field names. *)
Record namedtuple_type : Type := {
  typename : string;
  field_names : list string
}.

(** An instance: the class and the items, position by position. *)
Record namedtuple : Type := {
  nt_type : namedtuple_type;
  nt_items : list pyval
}.

(** [T( *args )]: one positional argument per field, else [TypeError]. *)
Definition nt_new (T : namedtuple_type) (args : list pyval)
  : result namedtuple :=
  if Nat.eqb (List.length args) (List.length (field_names T))
  then Ok {| nt_type := T; nt_items := args |}
  else Raise (TypeError "wrong number of positional arguments").

Fixpoint index_of (name : string) (names : list string) : option nat :=
  match names with
  | [] => None
  | n :: rest =>
      if String.eqb n name then Some 0%nat
      else option_map S (index_of name rest)
  end.

(** [t.name]: the item at the position of [name] among the fields. *)
Definition nt_getattr (t : namedtuple) (name : string) : result pyval :=
  match index_of name (field_names (nt_type t)) with
  | Some i =>
      match nth_error (nt_items t) i with
      | Some v => Ok v
      | None => Raise (AttributeError name)
      end
  | None => Raise (AttributeError name)
  end.

(* field names are camel case to match bullet convention *)
Definition DynamicsInfo : namedtuple_type :=
  {| typename := "DynamicsInfo";
     field_names :=
       [ "mass"; "lateralFriction"; "localInertiaDiagonal";
         "localInerialPos"; "localInertialOrn"; "restitution";
         "rollingFriction"; "spinningFriction"; "contactDamping";
         "contactStiffness"; "bodyType"; "collisionMargin" ]%string |}.

Definition ContactPoint : namedtuple_type :=
  {| typename := "ContactPoint";
     field_names :=
       [ "contactFlag"; "bodyUniqueIdA"; "bodyUniqueIdB"; "linkIndexA";
         "linkIndexB"; "positionOnA"; "positionOnB"; "contactNormalOnB";
         "contactDistance"; "normalForce"; "lateralFriction1";
         "lateralFrictionDir1"; "lateralFriction2";
         "lateralFrictionDir2" ]%string |}.

Definition getDynamicsInfo (e : Pyb.Engine)
    (bodyUniqueId linkIndex physicsClientId : Z) : result namedtuple :=
  raw <- Pyb.getDynamicsInfo e bodyUniqueId linkIndex physicsClientId ;;
  nt_new DynamicsInfo raw.

Definition getContactPoints (e : Pyb.Engine)
    (bodyA bodyB linkIndexA linkIndexB physicsClientId : Z)
  : result (list namedtuple) :=
  points_raw <-
    Pyb.getContactPoints e bodyA bodyB linkIndexA linkIndexB physicsClientId ;;
  comprehension (nt_new ContactPoint) points_raw.

Definition getClosestPoints (e : Pyb.Engine)
    (bodyA bodyB : Z) (distance : float)
    (linkIndexA linkIndexB physicsClientId : Z)
  : result (list namedtuple) :=
  points_raw <-
    Pyb.getClosestPoints e bodyA bodyB distance linkIndexA linkIndexB
      physicsClientId ;;
  comprehension (nt_new ContactPoint) points_raw.

(** Modelled from the spec: the joint-info adapter [getJointInfo], which
    robots.py imports from named_tuples but which is not among the
    sources.  It yields a record with at least the fields [jointIndex]
    and [jointName], the name decoded from the engine's byte string.
    Text is kept as its UTF-8 byte sequence, so decoding leaves the bytes
    as they are. *)
Record JointInfo : Type := {
  jointIndex : Z;
  jointName : string
}.

Definition getJointInfo (e : Pyb.Engine) (bodyUniqueId jointIdx : Z)
  : result JointInfo :=
  info <- Pyb.getJointInfo e bodyUniqueId jointIdx ;;
  Ok {| jointIndex := Pyb.raw_jointIndex info;
        jointName := Pyb.raw_jointName info |}.

End NamedTuples.

(** ** robots.py *)

Module Robots.

Import NamedTuples.

Record Robot : Type := {
  uid : Z;
  num_joints : Z;
  _joint_indices : list Z;
  tool_idx : Z
}.

(** The [for i in range(self.num_joints)] loop of [__init__]:
    [self.tool_idx] starts as [None] and is set at the first joint whose
    name equals [tool_joint_name], where the loop breaks. *)
Fixpoint find_tool_joint (e : Pyb.Engine) (uid : Z) (tool_joint_name : string)
    (indices : list Z) : result (option Z) :=
  match indices with
  | [] => Ok None
  | i :: rest =>
      info <- getJointInfo e uid i ;;
      if String.eqb (jointName info) tool_joint_name
      then Ok (Some (jointIndex info))
      else find_tool_joint e uid tool_joint_name rest
  end.

Definition no_joint_message (tool_joint_name : string) : string :=
  ("No joint with name " ++ tool_joint_name ++ " found.")%string.

(** [Robot(uid, tool_joint_name=None)]. *)
Definition init (e : Pyb.Engine) (uid : Z) (tool_joint_name : option string)
  : result Robot :=
  num_joints <- Pyb.getNumJoints e uid ;;
  let joint_indices := range num_joints in
  match tool_joint_name with
  | None =>
      tool <- getitem joint_indices (-1) ;;
      Ok {| uid := uid; num_joints := num_joints;
            _joint_indices := joint_indices; tool_idx := tool |}
  | Some name =>
      found <- find_tool_joint e uid name (range num_joints) ;;
      match found with
      | Some tool =>
          Ok {| uid := uid; num_joints := num_joints;
                _joint_indices := joint_indices; tool_idx := tool |}
      | None => Raise (ValueError (no_joint_message name))
      end
  end.

Definition get_joint_states (e : Pyb.Engine) (self : Robot)
  : result (vec * vec) :=
  states <- Pyb.getJointStates e (uid self) (_joint_indices self) ;;
  let q := map Pyb.jointPosition states in
  let v := map Pyb.jointVelocity states in
  Ok (q, v).

Definition reset_joint_configuration (self : Robot) (q : vec)
  : list Pyb.Command :=
  map (fun '(idx, angle) => Pyb.resetJointState (uid self) idx angle)
      (zip (_joint_indices self) q).

Definition command_velocity (self : Robot) (u : vec) : list Pyb.Command :=
  [ Pyb.setJointMotorControlArray (uid self) (_joint_indices self)
      Pyb.VELOCITY_CONTROL u ].

Definition get_link_pose (e : Pyb.Engine) (self : Robot)
    (link_idx : option Z) : result (vec * vec) :=
  let link_idx :=
    match link_idx with None => tool_idx self | Some l => l end in
  state <- Pyb.getLinkState e (uid self) link_idx false true ;;
  pos <- getitem (Pyb.LinkState_tuple state) 4 ;;
  orn <- getitem (Pyb.LinkState_tuple state) 5 ;;
  Ok (pos, orn).

Definition get_link_velocity (e : Pyb.Engine) (self : Robot)
    (link_idx : option Z) : result (vec * vec) :=
  let link_idx :=
    match link_idx with None => tool_idx self | Some l => l end in
  state <- Pyb.getLinkState e (uid self) link_idx true false ;;
  lin <- getitem (Pyb.LinkState_tuple state) (-2) ;;
  ang <- getitem (Pyb.LinkState_tuple state) (-1) ;;
  Ok (lin, ang).

(** The configuration [jacobian] works at: the given one, or the current
    joint positions. *)
Definition jacobian_q (e : Pyb.Engine) (self : Robot) (q : option vec)
  : result vec :=
  match q with
  | None => qv <- get_joint_states e self ;; Ok (fst qv)
  | Some q => Ok q
  end.

Definition jacobian (e : Pyb.Engine) (self : Robot)
    (q : option vec) (link_idx : option Z) (offset : option vec)
  : result matrix :=
  q <- jacobian_q e self q ;;
  let offset := match offset with None => zeros 3 | Some o => o end in
  let link_idx :=
    match link_idx with None => tool_idx self | Some l => l end in
  let z := zeros_like q in
  JvJw <- Pyb.calculateJacobian e (uid self) link_idx offset q z z ;;
  vstack (fst JvJw) (snd JvJw).

End Robots.

(** ** A concrete engine: the two-link arm of the end-to-end scenario *)

Module Demo.

Import NamedTuples Robots.

(** A single body, uid 0, with joints "joint1" and "joint2"; any other
    uid has no joints. *)
Definition joint_info (i : Z) : JointInfo :=
  if i =? 0 then {| jointIndex := 0; jointName := "joint1" |}
  else {| jointIndex := 1; jointName := "joint2" |}.

Definition joint_state (i : Z) : Pyb.JointState :=
  {| Pyb.jointPosition := 0%float;
     Pyb.jointVelocity := (if i =? 0 then 2%float else 3%float);
     Pyb.jointReactionForces := zeros 6;
     Pyb.appliedJointMotorTorque := 0%float |}.

(** A link whose center of mass sits one unit along x from its URDF
    frame. *)
Definition link_state (computeLinkVelocity : bool) : Pyb.LinkState :=
  {| Pyb.linkWorldPosition := [1; 0; 0]%float;
     Pyb.linkWorldOrientation := [0; 0; 0; 1]%float;
     Pyb.localInertialFramePosition := [1; 0; 0]%float;
     Pyb.localInertialFrameOrientation := [0; 0; 0; 1]%float;
     Pyb.worldLinkFramePosition := [0; 0; 0]%float;
     Pyb.worldLinkFrameOrientation := [0; 0; 0; 1]%float;
     Pyb.worldLinkVelocities :=
       if computeLinkVelocity
       then Some ([0; 0; 0]%float, [0; 0; 0]%float) else None |}.

Definition dynamics_raw : list pyval :=
  [ PyFloat 1; PyFloat 0.5; PyTuple [PyFloat 1; PyFloat 1; PyFloat 1];
    PyTuple [PyFloat 0; PyFloat 0; PyFloat 0];
    PyTuple [PyFloat 0; PyFloat 0; PyFloat 0; PyFloat 1];
    PyFloat 0; PyFloat 0; PyFloat 0; PyFloat (-1); PyFloat (-1);
    PyInt 2; PyFloat 0.125 ]%float.

Definition contact_raw : list pyval :=
  [ PyInt 0; PyInt 0; PyInt 1; PyInt (-1); PyInt (-1);
    PyTuple [PyFloat 0; PyFloat 0; PyFloat 0];
    PyTuple [PyFloat 0; PyFloat 0; PyFloat 0];
    PyTuple [PyFloat 0; PyFloat 0; PyFloat 1];
    PyFloat 0; PyFloat 9.5; PyFloat 0;
    PyTuple [PyFloat 1; PyFloat 0; PyFloat 0]; PyFloat 0;
    PyTuple [PyFloat 0; PyFloat 1; PyFloat 0] ]%float.

Definition engine : Pyb.Engine :=
  {| Pyb.getNumJoints := fun uid => Ok (if uid =? 0 then 2 else 0);
     Pyb.getJointInfo := fun uid i =>
       if (uid =? 0) && (0 <=? i) && (i <? 2)
       then Ok {| Pyb.raw_jointIndex := jointIndex (joint_info i);
                  Pyb.raw_jointName := jointName (joint_info i) |}
       else Raise (EngineError "GetJointInfo failed.");
     Pyb.getJointStates := fun _ idxs => Ok (map joint_state idxs);
     Pyb.getLinkState := fun _ _ clv _ => Ok (link_state clv);
     Pyb.calculateJacobian := fun _ _ _ q _ _ =>
       Ok (repeat (zeros_like q) 3, repeat (zeros_like q) 3);
     Pyb.getDynamicsInfo := fun _ _ _ => Ok dynamics_raw;
     Pyb.getContactPoints := fun bodyA _ _ _ _ =>
       Ok (if bodyA =? 0 then [contact_raw] else []);
     Pyb.getClosestPoints := fun _ _ _ _ _ _ => Ok [] |}.

Definition robot : Robot :=
  {| uid := 0; num_joints := 2; _joint_indices := [0; 1]; tool_idx := 1 |}.

End Demo.

(** ** What the statements speak of *)

Module Spec.

Import NamedTuples Robots.

(** The engine reports [n] joints for body [uid], and [info i] for each
    joint index [i] below [n]. *)
Definition body_joints (e : Pyb.Engine) (uid n : Z) (info : Z -> JointInfo)
  : Prop :=
  Pyb.getNumJoints e uid = Ok n /\
  forall i, 0 <= i < n -> getJointInfo e uid i = Ok (info i).

(** [k] is the first joint index below [n] whose name is [name]. *)
Definition first_named (info : Z -> JointInfo) (n : Z) (name : string)
    (k : Z) : Prop :=
  0 <= k < n /\ jointName (info k) = name /\
  forall j, 0 <= j < k -> jointName (info j) <> name.

(** The joints named by a list of commands, in order. *)
Definition joints_acted_on (cmds : list Pyb.Command) : list Z :=
  flat_map Pyb.command_joints cmds.

(** [m] has [r] rows of [c] entries each. *)
Definition has_shape (m : matrix) (r c : nat) : Prop :=
  List.length m = r /\ Forall (fun row => List.length row = c) m.

Definition default {A} (o : option A) (d : A) : A :=
  match o with Some a => a | None => d end.

End Spec.

(** ** An engine that misbehaves *)

Module Flaky.

(** Body 0 is counted with three joints, but joint-info queries are
    answered for joints 0 and 1 only; the dynamics tuple has ten items
    (an engine built before the last two fields existed); the second
    contact point is cut short. *)
Definition short_dynamics_raw : list pyval :=
  firstn 10 Demo.dynamics_raw.

Definition points_raw : list (list pyval) :=
  [ Demo.contact_raw; [PyInt 0; PyInt 0; PyInt 1] ].

Definition engine : Pyb.Engine :=
  {| Pyb.getNumJoints := fun uid => Ok (if uid =? 0 then 3 else 0);
     Pyb.getJointInfo := Pyb.getJointInfo Demo.engine;
     Pyb.getJointStates := Pyb.getJointStates Demo.engine;
     Pyb.getLinkState := Pyb.getLinkState Demo.engine;
     Pyb.calculateJacobian := Pyb.calculateJacobian Demo.engine;
     Pyb.getDynamicsInfo := fun _ _ _ => Ok short_dynamics_raw;
     Pyb.getContactPoints := fun _ _ _ _ _ => Ok points_raw;
     Pyb.getClosestPoints := fun _ _ _ _ _ _ => Ok points_raw |}.

(** The demo engine with the joints at the same positions but moving at
    other velocities, under other loads. *)
Definition moving_state (i : Z) : Pyb.JointState :=
  {| Pyb.jointPosition := 0%float;
     Pyb.jointVelocity := 7%float;
     Pyb.jointReactionForces := [];
     Pyb.appliedJointMotorTorque := 1%float |}.

Definition moving_engine : Pyb.Engine :=
  Pyb.with_joint_states Demo.engine
    (fun _ idxs => Ok (map moving_state idxs)).

End Flaky.

(** ** A live engine: calls that read and may change the engine state *)

Module Live.

Import Robots.

(** A call into an engine whose state has type [S]: the answer, or the
    exception raised, and the state the call leaves behind. *)
Definition call (S A : Type) : Type := S -> result A * S.

Definition ret {S A} (m : result A) : call S A := fun s => (m, s).

Definition bind {S A B} (m : call S A) (k : A -> call S B) : call S B :=
  fun s =>
    match m s with
    | (Ok a, s') => k a s'
    | (Raise x, s') => (Raise x, s')
    end.

(** The two engine routines [jacobian] reaches, as calls on the live
    state. *)
Record Sim (S : Type) : Type := {
  getJointStates : Z -> list Z -> call S (list Pyb.JointState);
  calculateJacobian :
    Z -> Z -> vec -> vec -> vec -> vec -> call S (matrix * matrix)
}.
Arguments getJointStates {S} _ _ _ _.
Arguments calculateJacobian {S} _ _ _ _ _ _ _ _.

Definition get_joint_states {S} (sim : Sim S) (self : Robot)
  : call S (vec * vec) :=
  bind (getJointStates sim (uid self) (_joint_indices self)) (fun states =>
  let q := map Pyb.jointPosition states in
  let v := map Pyb.jointVelocity states in
  ret (Ok (q, v))).

Definition jacobian {S} (sim : Sim S) (self : Robot)
    (q : option vec) (link_idx : option Z) (offset : option vec)
  : call S matrix :=
  bind (match q with
        | None => bind (get_joint_states sim self) (fun qv => ret (Ok (fst qv)))
        | Some q => ret (Ok q)
        end) (fun q =>
  let offset := match offset with None => zeros 3 | Some o => o end in
  let link_idx :=
    match link_idx with None => tool_idx self | Some l => l end in
  let z := zeros_like q in
  bind (calculateJacobian sim (uid self) link_idx offset q z z) (fun JvJw =>
  ret (vstack (fst JvJw) (snd JvJw)))).

(** An engine frozen at a snapshot: every call answers as the snapshot
    does and leaves the state alone. *)
Definition frozen {S} (e : Pyb.Engine) : Sim S :=
  {| getJointStates := fun u idxs => ret (Pyb.getJointStates e u idxs);
     calculateJacobian := fun u l o q v a =>
       ret (Pyb.calculateJacobian e u l o q v a) |}.

(** A probe engine: its state counts the joint-state queries served; its
    Jacobian routine leaves the state alone and hands back, in both
    blocks, the positions, velocities and accelerations it was given, one
    per row. *)
Definition probe : Sim nat :=
  {| getJointStates := fun _ idxs n =>
       (Ok (map Demo.joint_state idxs), S n);
     calculateJacobian := fun _ _ _ q v a n =>
       (Ok ([q; v; a], [q; v; a]), n) |}.

End Live.

(** ** Engines that tell links and point pairs apart *)

Module Probe.

(** Link states that differ from link to link: link 1 sits at (1,1,1). *)
Definition link_state (link : Z) (computeLinkVelocity : bool)
  : Pyb.LinkState :=
  {| Pyb.linkWorldPosition :=
       (if Z.eqb link 1 then [1; 1; 1] else [0; 0; 0])%float;
     Pyb.linkWorldOrientation := [0; 0; 0; 1]%float;
     Pyb.localInertialFramePosition := [0; 0; 0]%float;
     Pyb.localInertialFrameOrientation := [0; 0; 0; 1]%float;
     Pyb.worldLinkFramePosition :=
       (if Z.eqb link 1 then [1; 1; 1] else [0; 0; 0])%float;
     Pyb.worldLinkFrameOrientation := [0; 0; 0; 1]%float;
     Pyb.worldLinkVelocities :=
       if computeLinkVelocity
       then Some ((if Z.eqb link 1 then [2; 0; 0] else [0; 0; 0])%float,
                  [0; 0; 0]%float)
       else None |}.

(** A second point pair, a quarter of a unit apart. *)
Definition closest_raw : list pyval :=
  [ PyInt 0; PyInt 0; PyInt 1; PyInt 1; PyInt (-1);
    PyTuple [PyFloat 0; PyFloat 0; PyFloat 1];
    PyTuple [PyFloat 0; PyFloat 0; PyFloat 0.75];
    PyTuple [PyFloat 0; PyFloat 0; PyFloat 1];
    PyFloat 0.25; PyFloat 0; PyFloat 0;
    PyTuple [PyFloat 0; PyFloat 0; PyFloat 0]; PyFloat 0;
    PyTuple [PyFloat 0; PyFloat 0; PyFloat 0] ]%float.

(** The demo engine, except that link states depend on the link, the
    Jacobian blocks on the link (a row of ones for link 1), and the
    closest-points query returns two point pairs. *)
Definition engine : Pyb.Engine :=
  {| Pyb.getNumJoints := Pyb.getNumJoints Demo.engine;
     Pyb.getJointInfo := Pyb.getJointInfo Demo.engine;
     Pyb.getJointStates := Pyb.getJointStates Demo.engine;
     Pyb.getLinkState := fun _ link clv _ => Ok (link_state link clv);
     Pyb.calculateJacobian := fun _ link _ q _ _ =>
       let row := if link =? 1 then map (fun _ => 1%float) q
                  else zeros_like q in
       Ok (repeat row 3, repeat row 3);
     Pyb.getDynamicsInfo := Pyb.getDynamicsInfo Demo.engine;
     Pyb.getContactPoints := Pyb.getContactPoints Demo.engine;
     Pyb.getClosestPoints := fun _ _ _ _ _ _ =>
       Ok [Demo.contact_raw; closest_raw] |}.

End Probe.

(** ** Facts about the Python and numpy operations *)

Import NamedTuples Robots Spec.

Lemma bind_Ok_inv {A B} (m : result A) (k : A -> result B) (b : B) :
  Py.bind m k = Ok b -> exists a, m = Ok a /\ k a = Ok b.
Proof.
  destruct m as [a|x]; simpl; intro H.
  - exists a. split; [reflexivity | exact H].
  - discriminate H.
Qed.

Lemma range_length n : List.length (range n) = Z.to_nat n.
Proof. unfold range. rewrite length_map, length_seq. reflexivity. Qed.

Lemma range_nonpos n : n <= 0 -> range n = [].
Proof.
  intro H. unfold range.
  replace (Z.to_nat n) with 0%nat by lia. reflexivity.
Qed.

Lemma len_range n : 0 <= n -> len (range n) = n.
Proof. intro H. unfold len. rewrite range_length. lia. Qed.

Lemma in_range n i : In i (range n) <-> 0 <= i < n.
Proof.
  unfold range. rewrite in_map_iff. split.
  - intros [k [<- Hk]]. apply in_seq in Hk. lia.
  - intro H. exists (Z.to_nat i). split; [lia | apply in_seq; lia].
Qed.

Lemma range_nth_error n i :
  0 <= i < n -> nth_error (range n) (Z.to_nat i) = Some i.
Proof.
  intro H. unfold range.
  rewrite nth_error_map.
  assert (E : nth_error (seq 0 (Z.to_nat n)) (Z.to_nat i)
              = Some (Z.to_nat i)).
  { rewrite (nth_error_nth' _ 0%nat) by (rewrite length_seq; lia).
    rewrite seq_nth by lia. reflexivity. }
  rewrite E. simpl. f_equal. lia.
Qed.

Lemma getitem_in_range {A} (l : list A) i x :
  0 <= i < len l -> nth_error l (Z.to_nat i) = Some x -> getitem l i = Ok x.
Proof.
  intros Hi Hx. unfold getitem. cbv zeta.
  destruct (i <? 0) eqn:E1; [apply Z.ltb_lt in E1; lia|].
  rewrite E1.
  destruct (len l <=? i) eqn:E2; [apply Z.leb_le in E2; lia|].
  simpl. rewrite Hx. reflexivity.
Qed.

Lemma getitem_last_range n : 1 <= n -> getitem (range n) (-1) = Ok (n - 1).
Proof.
  intro H. unfold getitem. cbv zeta.
  rewrite len_range by lia. change (-1 <? 0) with true. cbv iota.
  destruct (-1 + n <? 0) eqn:E1; [apply Z.ltb_lt in E1; lia|].
  destruct (n <=? -1 + n) eqn:E2; [apply Z.leb_le in E2; lia|].
  cbv [orb]. replace (-1 + n) with (n - 1) by lia.
  rewrite range_nth_error by lia. reflexivity.
Qed.

Lemma find_seq_Some (p : Z -> bool) len a k :
  find p (map Z.of_nat (seq a len)) = Some k ->
  Z.of_nat a <= k < Z.of_nat (a + len) /\ p k = true /\
  forall j, Z.of_nat a <= j < k -> p j = false.
Proof.
  revert a. induction len as [|len IH]; intros a; simpl.
  - discriminate.
  - destruct (p (Z.of_nat a)) eqn:Pa.
    + intro H. injection H as <-. repeat split; try lia. exact Pa.
    + intro H. apply IH in H. destruct H as [Hk [Pk Hj]].
      repeat split; try lia; [exact Pk|].
      intros j Hjk. destruct (Z.eq_dec j (Z.of_nat a)) as [->|Hne].
      * exact Pa.
      * apply Hj. lia.
Qed.

Lemma find_seq_None (p : Z -> bool) len a :
  find p (map Z.of_nat (seq a len)) = None ->
  forall j, Z.of_nat a <= j < Z.of_nat (a + len) -> p j = false.
Proof.
  revert a. induction len as [|len IH]; intros a; simpl.
  - intros _ j Hj. lia.
  - destruct (p (Z.of_nat a)) eqn:Pa; [discriminate|].
    intros H j Hj. destruct (Z.eq_dec j (Z.of_nat a)) as [->|Hne].
    + exact Pa.
    + apply (IH (S a) H). lia.
Qed.

Lemma find_range_Some (p : Z -> bool) n k :
  find p (range n) = Some k ->
  0 <= k < n /\ p k = true /\ forall j, 0 <= j < k -> p j = false.
Proof.
  unfold range. intro H. apply find_seq_Some in H.
  destruct H as [Hk [Pk Hj]]. repeat split; try lia; [exact Pk|].
  intros j Hjk. apply Hj. lia.
Qed.

Lemma find_range_None (p : Z -> bool) n :
  find p (range n) = None -> forall j, 0 <= j < n -> p j = false.
Proof.
  unfold range. intros H j Hj. apply (find_seq_None p _ _ H). lia.
Qed.

(** The name loop of [__init__] is a first-match search over the joint
    infos the engine reports. *)
Lemma find_tool_joint_find e uid name (info : Z -> JointInfo) idxs :
  (forall i, In i idxs -> getJointInfo e uid i = Ok (info i)) ->
  find_tool_joint e uid name idxs =
    Ok (option_map (fun i => jointIndex (info i))
          (find (fun i => String.eqb (jointName (info i)) name) idxs)).
Proof.
  induction idxs as [|i rest IH]; intro H; simpl.
  - reflexivity.
  - rewrite (H i) by (left; reflexivity). simpl.
    destruct (String.eqb (jointName (info i)) name); [reflexivity|].
    apply IH. intros j Hj. apply H. right. exact Hj.
Qed.

(** Every Robot the constructor yields wraps a body with at least one
    joint and holds the indices [0 .. num_joints - 1]. *)
Lemma init_Ok_inv e u name r :
  init e u name = Ok r ->
  exists n, Pyb.getNumJoints e u = Ok n /\ 1 <= n /\
            uid r = u /\ num_joints r = n /\ _joint_indices r = range n.
Proof.
  unfold init. intro H.
  apply bind_Ok_inv in H. destruct H as [n [Hn H]].
  exists n. split; [exact Hn|].
  destruct (Z_lt_le_dec n 1) as [Hlt|Hge].
  - rewrite (range_nonpos n) in H by lia.
    destruct name; simpl in H; discriminate H.
  - split; [exact Hge|].
    destruct name as [name|].
    + apply bind_Ok_inv in H. destruct H as [found [_ H]].
      destruct found; [|discriminate H].
      injection H as <-. simpl. auto.
    + apply bind_Ok_inv in H. destruct H as [tool [_ H]].
      injection H as <-. simpl. auto.
Qed.

(** ** Robot construction *)

(** C1: constructing a Robot with a tool joint name scans the joints in
    index order and sets [tool_idx] to the [jointIndex] of the first joint
    whose name equals the given one; when no joint has that name the
    constructor raises [ValueError] with the message naming it, and no
    Robot is produced.  The constructor succeeds iff some joint of the body
    has the name. *)
Theorem C1_init_by_name e u name n info :
  body_joints e u n info ->
  (forall k, first_named info n name k ->
     init e u (Some name) =
       Ok {| uid := u; num_joints := n; _joint_indices := range n;
             tool_idx := jointIndex (info k) |}) /\
  ((forall i, 0 <= i < n -> jointName (info i) <> name) ->
     init e u (Some name) =
       Raise (ValueError ("No joint with name " ++ name ++ " found.")%string))
  /\
  ((exists r, init e u (Some name) = Ok r) <->
   (exists i, 0 <= i < n /\ jointName (info i) = name)).
Proof.
  intros [Hn Hinfo]. unfold init. rewrite Hn. simpl.
  rewrite (find_tool_joint_find e u name info (range n))
    by (intros i Hi; apply Hinfo; apply in_range; exact Hi).
  simpl.
  destruct (find (fun i => String.eqb (jointName (info i)) name) (range n))
    as [k'|] eqn:F; simpl.
  - apply find_range_Some in F. destruct F as [Hk' [Pk' Hbefore]].
    apply String.eqb_eq in Pk'.
    split; [|split].
    + intros k [Hk [Nk Hfirst]].
      assert (k = k') as ->; [|reflexivity].
      destruct (Z.lt_trichotomy k k') as [Hlt|[Heq|Hgt]]; [|exact Heq|].
      * specialize (Hbefore k (conj (proj1 Hk) Hlt)).
        apply String.eqb_neq in Hbefore. contradiction.
      * exfalso. apply (Hfirst k'); [lia | exact Pk'].
    + intro Hnone. exfalso. apply (Hnone k' Hk'). exact Pk'.
    + split.
      * intros _. exists k'. split; assumption.
      * intros _. eexists. reflexivity.
  - pose proof (find_range_None _ _ F) as Hnone.
    split; [|split].
    + intros k [Hk [Nk _]]. specialize (Hnone k Hk).
      apply String.eqb_neq in Hnone. contradiction.
    + intros _. reflexivity.
    + split.
      * intros [r Hr]. discriminate Hr.
      * intros [i [Hi Ni]]. specialize (Hnone i Hi).
        apply String.eqb_neq in Hnone. contradiction.
Qed.

Lemma C1_init_by_name_witness :
  init Demo.engine 0 (Some "joint2"%string) = Ok Demo.robot /\
  init Demo.engine 0 (Some "joint3"%string)
    = Raise (ValueError "No joint with name joint3 found.").
Proof.
  assert (B : body_joints Demo.engine 0 2 Demo.joint_info).
  { split; [reflexivity|].
    intros i Hi. assert (i = 0 \/ i = 1) as [-> | ->] by lia; reflexivity. }
  split.
  - destruct (C1_init_by_name Demo.engine 0 "joint2"%string 2
                Demo.joint_info B) as [Hfirst _].
    apply (Hfirst 1).
    split; [lia|]. split; [reflexivity|].
    intros j Hj. assert (j = 0) as -> by lia. simpl. discriminate.
  - destruct (C1_init_by_name Demo.engine 0 "joint3"%string 2
                Demo.joint_info B) as [_ [Hnone _]].
    apply Hnone.
    intros i Hi. assert (i = 0 \/ i = 1) as [-> | ->] by lia;
      simpl; discriminate.
Defined.

(** C5: constructed without a tool joint name on a body with at least one
    joint, the Robot's [tool_idx] is the last joint index,
    [num_joints - 1]. *)
Theorem C5_init_default_tool e u n :
  Pyb.getNumJoints e u = Ok n -> 1 <= n ->
  exists r, init e u None = Ok r /\
            num_joints r = n /\ tool_idx r = num_joints r - 1.
Proof.
  intros Hn Hge. unfold init. rewrite Hn. simpl.
  rewrite getitem_last_range by exact Hge. simpl.
  eexists. split; [reflexivity|]. simpl. split; reflexivity.
Qed.

Lemma C5_init_default_tool_witness :
  exists r, init Demo.engine 0 None = Ok r /\
            num_joints r = 2 /\ tool_idx r = num_joints r - 1.
Proof.
  apply (C5_init_default_tool Demo.engine 0 2); [reflexivity | lia].
Defined.

(** C10: on a body with zero joints, constructing a Robot without a tool
    joint name raises [IndexError] (the empty index list is indexed at
    -1); no Robot with a sentinel [tool_idx] is produced. *)
Theorem C10_init_no_joints e u :
  Pyb.getNumJoints e u = Ok 0 ->
  init e u None = Raise (IndexError "list index out of range") /\
  forall r, init e u None <> Ok r.
Proof.
  intro Hn. unfold init. rewrite Hn. simpl.
  split; [reflexivity | intros r H; discriminate H].
Qed.

Lemma C10_init_no_joints_witness :
  init Demo.engine 7 None = Raise (IndexError "list index out of range") /\
  forall r, init Demo.engine 7 None <> Ok r.
Proof.
  apply (C10_init_no_joints Demo.engine 7). reflexivity.
Defined.

(** ** Joint states *)

(** C8: every constructed Robot has as many joint indices as
    [num_joints]; and when the engine answers the joint-state query with
    the state [st i] of each requested joint [i], [get_joint_states]
    returns two vectors of length [num_joints] whose [i]-th entries are
    the position and the velocity of joint [i]. *)
Theorem C8_get_joint_states e u name r (st : Z -> Pyb.JointState) :
  init e u name = Ok r ->
  len (_joint_indices r) = num_joints r /\
  (Pyb.getJointStates e (uid r) (_joint_indices r)
     = Ok (map st (_joint_indices r)) ->
   exists q v,
     get_joint_states e r = Ok (q, v) /\
     len q = num_joints r /\ len v = num_joints r /\
     forall i, 0 <= i < num_joints r ->
       nth_error q (Z.to_nat i) = Some (Pyb.jointPosition (st i)) /\
       nth_error v (Z.to_nat i) = Some (Pyb.jointVelocity (st i))).
Proof.
  intro Hinit. apply init_Ok_inv in Hinit.
  destruct Hinit as [n [_ [Hge [_ [Hnum Hidx]]]]].
  rewrite Hidx, Hnum. split; [apply len_range; lia|].
  intro Hstates. unfold get_joint_states. rewrite Hidx, Hstates. simpl.
  eexists. eexists. split; [reflexivity|].
  unfold len. rewrite !length_map, range_length.
  split; [lia|]. split; [lia|].
  intros i Hi. rewrite !nth_error_map, range_nth_error by exact Hi.
  simpl. split; reflexivity.
Qed.

Lemma C8_get_joint_states_witness :
  len (_joint_indices Demo.robot) = num_joints Demo.robot /\
  exists q v,
    get_joint_states Demo.engine Demo.robot = Ok (q, v) /\
    len q = num_joints Demo.robot /\ len v = num_joints Demo.robot /\
    forall i, 0 <= i < num_joints Demo.robot ->
      nth_error q (Z.to_nat i)
        = Some (Pyb.jointPosition (Demo.joint_state i)) /\
      nth_error v (Z.to_nat i)
        = Some (Pyb.jointVelocity (Demo.joint_state i)).
Proof.
  destruct (C8_get_joint_states Demo.engine 0 None Demo.robot
              Demo.joint_state eq_refl) as [Hlen Hstates].
  split; [exact Hlen | apply Hstates; reflexivity].
Defined.

(** ** Commands: joint reset and velocity control *)

Lemma map_fst_combine {A B} (a : list A) (b : list B) :
  map fst (combine a b) = firstn (List.length b) a.
Proof.
  revert b. induction a as [|x a IH]; intros [|y b]; simpl;
    try reflexivity.
  f_equal. apply IH.
Qed.

Lemma nth_error_combine_Some {A B} (a : list A) (b : list B) i x y :
  nth_error a i = Some x -> nth_error b i = Some y ->
  nth_error (combine a b) i = Some (x, y).
Proof.
  revert b i. induction a as [|x' a IH]; intros [|y' b] [|i]; simpl;
    try discriminate.
  - intros [= ->] [= ->]. reflexivity.
  - apply IH.
Qed.

Lemma firstn_seq_min k a n : firstn k (seq a n) = seq a (Nat.min k n).
Proof.
  revert a n. induction k as [|k IH]; intros a [|n]; simpl;
    try reflexivity.
  f_equal. apply IH.
Qed.

Lemma range_firstn k n :
  firstn k (range n) = range (Z.min (Z.of_nat k) n).
Proof.
  unfold range. rewrite firstn_map, firstn_seq_min. do 2 f_equal. lia.
Qed.

Lemma reset_joints_acted_on u (pairs : list (Z * float)) :
  joints_acted_on
    (map (fun '(idx, angle) => Pyb.resetJointState u idx angle) pairs)
  = map fst pairs.
Proof.
  unfold joints_acted_on.
  induction pairs as [|[i a] rest IH]; simpl; [reflexivity|].
  f_equal. exact IH.
Qed.

(** C2, as the code has it: [reset_joint_configuration] resets exactly
    the first [min(len(q), num_joints)] joints, each to its entry of [q],
    and this layer raises nothing on a length mismatch;
    [command_velocity] sends one command that carries all [num_joints]
    joint indices together with all of [u], whatever the length of [u]:
    nothing is cut to the shorter sequence in this layer. *)
Theorem C2_mismatched_lengths e u name r (q v : vec) :
  init e u name = Ok r ->
  len (reset_joint_configuration r q) = Z.min (len q) (num_joints r) /\
  joints_acted_on (reset_joint_configuration r q)
    = range (Z.min (len q) (num_joints r)) /\
  (forall i a, 0 <= i < num_joints r ->
     nth_error q (Z.to_nat i) = Some a ->
     nth_error (reset_joint_configuration r q) (Z.to_nat i)
       = Some (Pyb.resetJointState (uid r) i a)) /\
  command_velocity r v =
    [ Pyb.setJointMotorControlArray (uid r) (range (num_joints r))
        Pyb.VELOCITY_CONTROL v ] /\
  joints_acted_on (command_velocity r v) = range (num_joints r).
Proof.
  intro Hinit. apply init_Ok_inv in Hinit.
  destruct Hinit as [n [_ [Hge [_ [Hnum Hidx]]]]].
  unfold reset_joint_configuration, command_velocity, zip.
  rewrite Hidx, Hnum.
  split; [|split; [|split; [|split]]].
  - unfold len. rewrite length_map, length_combine, range_length. lia.
  - rewrite reset_joints_acted_on, map_fst_combine, range_firstn.
    reflexivity.
  - intros i a Hi Ha. rewrite nth_error_map.
    rewrite (nth_error_combine_Some _ _ _ i a (range_nth_error n i Hi) Ha).
    reflexivity.
  - reflexivity.
  - unfold joints_acted_on. simpl. apply app_nil_r.
Qed.

Lemma C2_mismatched_lengths_witness :
  reset_joint_configuration Demo.robot [1%float]
    = [Pyb.resetJointState 0 0 1%float] /\
  joints_acted_on (command_velocity Demo.robot [1%float]) = [0; 1].
Proof.
  destruct (C2_mismatched_lengths Demo.engine 0 None Demo.robot
              [1%float] [1%float] eq_refl) as [_ [_ [_ [_ Hcmd]]]].
  split; [reflexivity | exact Hcmd].
Defined.

(** C2, as stated, fails for [command_velocity]: on the two-joint arm a
    one-entry velocity vector still addresses both joints, not
    [min(1, 2) = 1] of them. *)
Lemma C2_command_velocity_not_truncated :
  init Demo.engine 0 None = Ok Demo.robot /\
  len [1%float] <> num_joints Demo.robot /\
  len (joints_acted_on (command_velocity Demo.robot [1%float]))
    <> Z.min (len [1%float]) (num_joints Demo.robot).
Proof.
  split; [reflexivity|]. split; vm_compute; discriminate.
Qed.

(** ** Link pose *)

(** [get_link_pose] hands back items 4 and 5 of the link state: the pose
    of the URDF link frame. *)
Lemma get_link_pose_link_frame e r l st :
  Pyb.getLinkState e (uid r) (default l (tool_idx r)) false true = Ok st ->
  get_link_pose e r l
    = Ok (Pyb.worldLinkFramePosition st, Pyb.worldLinkFrameOrientation st).
Proof.
  intro H. unfold get_link_pose. unfold default in H. rewrite H. simpl.
  unfold Pyb.LinkState_tuple.
  destruct (Pyb.worldLinkVelocities st) as [[lin ang]|]; reflexivity.
Qed.

(** C3, evaluated on a link whose center of mass is off its URDF frame:
    [get_link_pose] returns the link-frame pose (items 4 and 5 of the
    link state), which is not the center-of-mass pose (items 0 and 1)
    that the docstring promises. *)
Theorem C3_get_link_pose_off_center_of_mass :
  exists st,
    Pyb.getLinkState Demo.engine (uid Demo.robot) (tool_idx Demo.robot)
      false true = Ok st /\
    get_link_pose Demo.engine Demo.robot None
      = Ok (Pyb.worldLinkFramePosition st,
            Pyb.worldLinkFrameOrientation st) /\
    get_link_pose Demo.engine Demo.robot None
      <> Ok (Pyb.linkWorldPosition st, Pyb.linkWorldOrientation st).
Proof.
  exists (Demo.link_state false).
  split; [reflexivity|]. split; [reflexivity|].
  intro H.
  apply (f_equal (fun res =>
           match res with
           | Ok (x :: _, _) => PrimFloat.eqb x 0
           | _ => false
           end)) in H.
  vm_compute in H. discriminate H.
Qed.

(** ** The Jacobian *)

Lemma zeros_like_repeat (q : vec) :
  zeros_like q = repeat 0%float (List.length q).
Proof.
  unfold zeros_like. induction q as [|x q IH]; simpl; [reflexivity|].
  f_equal. exact IH.
Qed.

Lemma has_shape_rows (m : matrix) r c :
  has_shape m (S r) c ->
  atleast_2d m = m /\ ncols m = c /\ rectangular m = true.
Proof.
  intros [Hlen Hrows]. destruct m as [|row rest]; [discriminate Hlen|].
  split; [reflexivity|].
  assert (Hc : ncols (row :: rest) = c).
  { simpl. inversion Hrows. assumption. }
  split; [exact Hc|].
  unfold rectangular. rewrite Hc. apply forallb_forall.
  intros x Hx. apply Nat.eqb_eq.
  rewrite Forall_forall in Hrows. apply Hrows. exact Hx.
Qed.

Lemma has_shape_app (a b : matrix) ra rb c :
  has_shape a ra c -> has_shape b rb c -> has_shape (a ++ b) (ra + rb) c.
Proof.
  intros [La Fa] [Lb Fb]. split.
  - rewrite length_app. lia.
  - apply Forall_app. split; assumption.
Qed.

Lemma vstack_blocks (a b : matrix) ra rb c :
  has_shape a (S ra) c -> has_shape b (S rb) c -> vstack a b = Ok (a ++ b).
Proof.
  intros Ha Hb.
  destruct (has_shape_rows a ra c Ha) as [Ea [Ca Ra]].
  destruct (has_shape_rows b rb c Hb) as [Eb [Cb Rb]].
  unfold vstack. cbv zeta. rewrite Ea, Eb, Ra, Rb, Ca, Cb.
  rewrite Nat.eqb_refl. reflexivity.
Qed.

(** C4: with [n = num_joints], when the engine's Jacobian routine
    returns a 3-by-n linear block and a 3-by-n angular block, [jacobian]
    returns the 6-by-n matrix with the linear block on top of the angular
    one.  The routine is called at the given [q], or at the current joint
    positions when [q] is omitted; at the given offset, or at the zero
    3-vector; for the given link, or for [tool_idx]. *)
Theorem C4_jacobian_stacks_blocks e r (qo : option vec) (lo : option Z)
    (oo : option vec) (q : vec) (Jv Jw : matrix) :
  match qo with
  | Some q' => q' = q
  | None => exists v, get_joint_states e r = Ok (q, v)
  end ->
  Pyb.calculateJacobian e (uid r)
    (default lo (tool_idx r)) (default oo [0; 0; 0]%float) q
    (repeat 0%float (List.length q)) (repeat 0%float (List.length q))
    = Ok (Jv, Jw) ->
  has_shape Jv 3 (Z.to_nat (num_joints r)) ->
  has_shape Jw 3 (Z.to_nat (num_joints r)) ->
  jacobian e r qo lo oo = Ok (Jv ++ Jw) /\
  has_shape (Jv ++ Jw) 6 (Z.to_nat (num_joints r)) /\
  shape (Jv ++ Jw) = (6%nat, Z.to_nat (num_joints r)).
Proof.
  intros Hq Hcall Hv Hw.
  assert (Hq' : jacobian_q e r qo = Ok q).
  { destruct qo as [q'|]; simpl.
    - rewrite Hq. reflexivity.
    - destruct Hq as [v Hs]. rewrite Hs. reflexivity. }
  pose proof (has_shape_app _ _ _ _ _ Hv Hw) as Hshape.
  split; [|split].
  - unfold jacobian. unfold default in Hcall.
    rewrite Hq'. cbn [Py.bind]. cbv zeta.
    rewrite zeros_like_repeat. change (zeros 3) with [0; 0; 0]%float.
    rewrite Hcall. cbn [Py.bind fst snd].
    apply (vstack_blocks Jv Jw 2 2 _ Hv Hw).
  - exact Hshape.
  - unfold shape. destruct Hshape as [Hrows _]. rewrite Hrows.
    f_equal. destruct Hv as [Lv Fv].
    destruct Jv as [|row rest]; [discriminate Lv|].
    simpl. inversion Fv. assumption.
Qed.

Lemma C4_jacobian_stacks_blocks_witness :
  jacobian Demo.engine Demo.robot None None None
    = Ok (repeat [0; 0]%float 3 ++ repeat [0; 0]%float 3) /\
  has_shape (repeat [0; 0]%float 3 ++ repeat [0; 0]%float 3) 6 2 /\
  shape (repeat [0; 0]%float 3 ++ repeat [0; 0]%float 3) = (6%nat, 2%nat).
Proof.
  apply (C4_jacobian_stacks_blocks Demo.engine Demo.robot None None None
           [0; 0]%float).
  - exists [2; 3]%float. reflexivity.
  - reflexivity.
  - split; [reflexivity | repeat constructor].
  - split; [reflexivity | repeat constructor].
Defined.

(** With an explicit [q] the live [jacobian] makes one engine call, the
    Jacobian routine at [q] with zero velocities and accelerations, and
    leaves the state that call leaves. *)
Lemma live_jacobian_explicit_q {S} (sim : Live.Sim S) r (q : vec)
    (lo : option Z) (oo : option vec) (s : S) :
  Live.jacobian sim r (Some q) lo oo s =
    (JvJw <- fst (Live.calculateJacobian sim (uid r)
                    (default lo (tool_idx r)) (default oo [0; 0; 0]%float) q
                    (repeat 0%float (List.length q))
                    (repeat 0%float (List.length q)) s) ;;
     vstack (fst JvJw) (snd JvJw),
     snd (Live.calculateJacobian sim (uid r)
            (default lo (tool_idx r)) (default oo [0; 0; 0]%float) q
            (repeat 0%float (List.length q))
            (repeat 0%float (List.length q)) s)).
Proof.
  unfold Live.jacobian, Live.bind, Live.ret, default. cbv zeta.
  rewrite zeros_like_repeat. change (zeros 3) with [0; 0; 0]%float.
  destruct (Live.calculateJacobian sim (uid r) _ _ q _ _ s) as [[JvJw|x] s'];
    reflexivity.
Qed.

(** On a frozen engine the live [jacobian] is the snapshot [jacobian]. *)
Lemma live_jacobian_frozen {S} e r (qo : option vec) (lo : option Z)
    (oo : option vec) (s : S) :
  Live.jacobian (Live.frozen e) r qo lo oo s = (jacobian e r qo lo oo, s).
Proof.
  unfold Live.jacobian, Live.get_joint_states, Live.frozen, Live.bind,
    Live.ret, jacobian, jacobian_q, get_joint_states.
  cbn [Live.getJointStates Live.calculateJacobian].
  destruct qo as [q|].
  - cbn [Py.bind]. cbv zeta.
    destruct (Pyb.calculateJacobian e (uid r) _ _ q _ _); reflexivity.
  - destruct (Pyb.getJointStates e (uid r) (_joint_indices r)) as [states|x];
      [|reflexivity].
    cbn [Py.bind fst]. cbv zeta.
    destruct (Pyb.calculateJacobian e (uid r) _ _ _ _ _); reflexivity.
Qed.

(** C9: on a live engine whose Jacobian routine is a query, one that
    leaves the engine state as it finds it, two calls of [jacobian] in a
    row with the same explicit [q], link and offset return the same
    matrix (or raise the same exception), and the engine state is left as
    it was.  The result is the routine's answer at [q] with all-zero
    velocity and acceleration vectors, stacked; the joint-state query is
    never made, so the current joint velocities play no part: swapping
    the joint-state routine for any other changes nothing. *)
Theorem C9_jacobian_explicit_q_repeatable {S} (sim : Live.Sim S) r (q : vec)
    (lo : option Z) (oo : option vec) :
  (forall u l o p v a s,
     snd (Live.calculateJacobian sim u l o p v a s) = s) ->
  (forall s,
     let first := Live.jacobian sim r (Some q) lo oo s in
     let second := Live.jacobian sim r (Some q) lo oo (snd first) in
     fst second = fst first /\ snd second = s) /\
  (forall s,
     fst (Live.jacobian sim r (Some q) lo oo s) =
       (JvJw <- fst (Live.calculateJacobian sim (uid r)
                       (default lo (tool_idx r))
                       (default oo [0; 0; 0]%float) q
                       (repeat 0%float (List.length q))
                       (repeat 0%float (List.length q)) s) ;;
        vstack (fst JvJw) (snd JvJw))) /\
  (forall joint_states s,
     Live.jacobian
       {| Live.getJointStates := joint_states;
          Live.calculateJacobian := Live.calculateJacobian sim |}
       r (Some q) lo oo s
     = Live.jacobian sim r (Some q) lo oo s).
Proof.
  intro Hquery. split; [|split].
  - intro s. cbv zeta.
    rewrite (live_jacobian_explicit_q sim r q lo oo s).
    cbn [fst snd]. rewrite Hquery.
    rewrite (live_jacobian_explicit_q sim r q lo oo s).
    cbn [fst snd]. rewrite Hquery. split; reflexivity.
  - intro s. rewrite live_jacobian_explicit_q. reflexivity.
  - intros joint_states s. rewrite !live_jacobian_explicit_q. reflexivity.
Qed.

Lemma C9_jacobian_explicit_q_repeatable_witness :
  (let first :=
     Live.jacobian Live.probe Demo.robot (Some [1; 2]%float) None None 5%nat in
   let second :=
     Live.jacobian Live.probe Demo.robot (Some [1; 2]%float) None None
       (snd first) in
   fst second = fst first /\ snd second = 5%nat) /\
  fst (Live.jacobian Live.probe Demo.robot (Some [1; 2]%float) None None
         5%nat)
    = Ok [ [1; 2]; [0; 0]; [0; 0]; [1; 2]; [0; 0]; [0; 0] ]%float.
Proof.
  assert (Hquery : forall u l o p v a s,
            snd (Live.calculateJacobian Live.probe u l o p v a s) = s).
  { intros. reflexivity. }
  destruct (C9_jacobian_explicit_q_repeatable Live.probe Demo.robot
              [1; 2]%float None None Hquery) as [Htwice [Hcall _]].
  split.
  - apply (Htwice 5%nat).
  - exact (eq_trans (Hcall 5%nat) eq_refl).
Defined.

(** ** Named tuples *)

Lemma index_of_nth names i name :
  NoDup names -> nth_error names i = Some name ->
  index_of name names = Some i.
Proof.
  revert i. induction names as [|n rest IH]; intros [|i] Hnd Hi; simpl in *;
    try discriminate.
  - injection Hi as ->. rewrite String.eqb_refl. reflexivity.
  - inversion Hnd as [|? ? Hnotin Hrest]; subst.
    destruct (String.eqb n name) eqn:E.
    + apply String.eqb_eq in E. subst n.
      exfalso. apply Hnotin. apply (nth_error_In _ _ Hi).
    + rewrite (IH i Hrest Hi). reflexivity.
Qed.

(** A named tuple built from as many items as its class has (distinct)
    fields answers each field name with the item at that field's
    position. *)
Lemma nt_new_positional T args :
  NoDup (field_names T) ->
  List.length args = List.length (field_names T) ->
  exists t, nt_new T args = Ok t /\ nt_type t = T /\ nt_items t = args /\
    forall i name, nth_error (field_names T) i = Some name ->
      exists v, nth_error args i = Some v /\ nt_getattr t name = Ok v.
Proof.
  intros Hnd Hlen. unfold nt_new. rewrite Hlen, Nat.eqb_refl.
  eexists. split; [reflexivity|]. simpl. split; [reflexivity|].
  split; [reflexivity|].
  intros i name Hi.
  assert (Hlt : (i < List.length args)%nat).
  { rewrite Hlen. apply nth_error_Some. rewrite Hi. discriminate. }
  destruct (nth_error args i) as [v|] eqn:Hv.
  - exists v. split; [reflexivity|].
    unfold nt_getattr. simpl.
    rewrite (index_of_nth _ _ _ Hnd Hi), Hv. reflexivity.
  - apply nth_error_None in Hv. lia.
Qed.

Lemma DynamicsInfo_fields_NoDup : NoDup (field_names DynamicsInfo).
Proof.
  simpl. repeat (constructor; [simpl; intuition discriminate|]).
  constructor.
Qed.

Lemma ContactPoint_fields_NoDup : NoDup (field_names ContactPoint).
Proof.
  simpl. repeat (constructor; [simpl; intuition discriminate|]).
  constructor.
Qed.

(** C6: for a valid body/link pair, where the engine returns its
    12-tuple, [getDynamicsInfo] returns a [DynamicsInfo] record: 12 named
    fields in the documented order, the [i]-th field being the [i]-th
    item of the engine's tuple. *)
Theorem C6_getDynamicsInfo_positional e body link client raw :
  Pyb.getDynamicsInfo e body link client = Ok raw ->
  List.length raw = 12%nat ->
  field_names DynamicsInfo =
    [ "mass"; "lateralFriction"; "localInertiaDiagonal";
      "localInerialPos"; "localInertialOrn"; "restitution";
      "rollingFriction"; "spinningFriction"; "contactDamping";
      "contactStiffness"; "bodyType"; "collisionMargin" ]%string /\
  List.length (field_names DynamicsInfo) = 12%nat /\
  exists d,
    getDynamicsInfo e body link client = Ok d /\
    nt_type d = DynamicsInfo /\ nt_items d = raw /\
    forall i name, nth_error (field_names DynamicsInfo) i = Some name ->
      exists v, nth_error raw i = Some v /\ nt_getattr d name = Ok v.
Proof.
  intros Hraw Hlen.
  split; [reflexivity|]. split; [reflexivity|].
  unfold getDynamicsInfo. rewrite Hraw. cbn [Py.bind].
  apply nt_new_positional; [apply DynamicsInfo_fields_NoDup | exact Hlen].
Qed.

Lemma C6_getDynamicsInfo_positional_witness :
  exists d,
    getDynamicsInfo Demo.engine 0 1 0 = Ok d /\
    nt_getattr d "mass" = Ok (PyFloat 1) /\
    nt_getattr d "bodyType" = Ok (PyInt 2) /\
    nt_getattr d "collisionMargin" = Ok (PyFloat 0.125).
Proof.
  destruct (C6_getDynamicsInfo_positional Demo.engine 0 1 0
              Demo.dynamics_raw eq_refl eq_refl)
    as [_ [_ [d [Hd [_ [_ Hfield]]]]]].
  exists d. split; [exact Hd|].
  destruct (Hfield 0%nat "mass"%string eq_refl) as [v0 [E0 G0]].
  destruct (Hfield 10%nat "bodyType"%string eq_refl) as [v10 [E10 G10]].
  destruct (Hfield 11%nat "collisionMargin"%string eq_refl)
    as [v11 [E11 G11]].
  injection E0 as <-. injection E10 as <-. injection E11 as <-.
  repeat split; assumption.
Defined.

Lemma comprehension_nt_new T (raw : list (list pyval)) :
  Forall (fun p => List.length p = List.length (field_names T)) raw ->
  comprehension (nt_new T) raw
    = Ok (map (fun p => {| nt_type := T; nt_items := p |}) raw).
Proof.
  induction 1 as [|p rest Hp _ IH]; simpl; [reflexivity|].
  unfold nt_new at 1. rewrite Hp, Nat.eqb_refl. simpl.
  rewrite IH. reflexivity.
Qed.

(** C7: [getContactPoints] returns one [ContactPoint] record per point
    the engine returns, in the engine's order, each record's 14 fields
    bound by position to the items of the engine's tuple; when the engine
    reports no contact the result is the empty list, not an error. *)
Theorem C7_getContactPoints_list e bodyA bodyB linkA linkB client raw :
  Pyb.getContactPoints e bodyA bodyB linkA linkB client = Ok raw ->
  Forall (fun p => List.length p = 14%nat) raw ->
  List.length (field_names ContactPoint) = 14%nat /\
  (raw = [] -> getContactPoints e bodyA bodyB linkA linkB client = Ok []) /\
  exists pts,
    getContactPoints e bodyA bodyB linkA linkB client = Ok pts /\
    List.length pts = List.length raw /\
    map nt_items pts = raw /\
    Forall (fun pt => nt_type pt = ContactPoint) pts /\
    forall k pt i name,
      nth_error pts k = Some pt ->
      nth_error (field_names ContactPoint) i = Some name ->
      exists p v, nth_error raw k = Some p /\ nth_error p i = Some v /\
                  nt_getattr pt name = Ok v.
Proof.
  intros Hraw Hlen.
  split; [reflexivity|].
  unfold getContactPoints. rewrite Hraw. cbn [Py.bind].
  split; [intros ->; reflexivity|].
  rewrite (comprehension_nt_new ContactPoint raw Hlen).
  eexists. split; [reflexivity|].
  split; [apply length_map|].
  split; [rewrite map_map; simpl; apply map_id|].
  split; [apply Forall_map, Forall_forall; intros; reflexivity|].
  intros k pt i name Hk Hi.
  rewrite nth_error_map in Hk.
  destruct (nth_error raw k) as [p|] eqn:Hp; [|discriminate Hk].
  simpl in Hk. injection Hk as <-.
  assert (Hplen : List.length p = List.length (field_names ContactPoint)).
  { rewrite Forall_forall in Hlen. apply Hlen. apply (nth_error_In _ _ Hp). }
  destruct (nt_new_positional ContactPoint p ContactPoint_fields_NoDup Hplen)
    as [t [Ht [_ [_ Hfield]]]].
  unfold nt_new in Ht. rewrite Hplen, Nat.eqb_refl in Ht.
  injection Ht as <-.
  destruct (Hfield i name Hi) as [v [Hv Hget]].
  exists p, v. repeat split; assumption.
Qed.

Lemma C7_getContactPoints_list_witness :
  getContactPoints Demo.engine 5 (-1) (-2) (-2) 0 = Ok [] /\
  exists pts,
    getContactPoints Demo.engine 0 (-1) (-2) (-2) 0 = Ok pts /\
    map nt_items pts = [Demo.contact_raw].
Proof.
  split.
  - destruct (C7_getContactPoints_list Demo.engine 5 (-1) (-2) (-2) 0 []
                eq_refl (Forall_nil _)) as [_ [Hempty _]].
    apply Hempty. reflexivity.
  - assert (F : Forall (fun p : list pyval => List.length p = 14%nat)
                  [Demo.contact_raw]).
    { constructor; [reflexivity | constructor]. }
    destruct (C7_getContactPoints_list Demo.engine 0 (-1) (-2) (-2) 0
                [Demo.contact_raw] eq_refl F)
      as [_ [_ [pts [Hpts [_ [Hitems _]]]]]].
    exists pts. split; assumption.
Defined.

(** ** More on construction *)

Lemma range_NoDup n : NoDup (range n).
Proof.
  unfold range.
  assert (H : forall l : list nat, NoDup l -> NoDup (map Z.of_nat l)).
  { induction 1 as [|x l Hx _ IH]; simpl; constructor; [|exact IH].
    rewrite in_map_iff. intros [y [Hy Hin]].
    apply Nat2Z.inj in Hy. subst y. contradiction. }
  apply H. apply seq_NoDup.
Qed.

(** Every Robot the constructor returns, by name or by default, wraps
    the given body, has at least one joint, holds the count the engine
    reported, and lists the joint indices [0 .. num_joints - 1] once
    each: no Robot is ever built around a body without joints. *)
Theorem init_robot_invariant e u name r :
  init e u name = Ok r ->
  uid r = u /\
  Pyb.getNumJoints e u = Ok (num_joints r) /\
  1 <= num_joints r /\
  _joint_indices r = range (num_joints r) /\
  NoDup (_joint_indices r).
Proof.
  intro H. apply init_Ok_inv in H.
  destruct H as [n [Hn [Hge [Hu [Hnum Hidx]]]]].
  rewrite Hidx, Hnum. repeat split; try assumption.
  apply range_NoDup.
Qed.

Lemma init_robot_invariant_witness :
  uid Demo.robot = 0 /\
  Pyb.getNumJoints Demo.engine 0 = Ok (num_joints Demo.robot) /\
  1 <= num_joints Demo.robot /\
  _joint_indices Demo.robot = range (num_joints Demo.robot) /\
  NoDup (_joint_indices Demo.robot).
Proof.
  apply (init_robot_invariant Demo.engine 0 (Some "joint2"%string)).
  reflexivity.
Defined.

Lemma find_tool_joint_seq_Some e u name len a t :
  find_tool_joint e u name (map Z.of_nat (seq a len)) = Ok (Some t) ->
  exists i info,
    Z.of_nat a <= i < Z.of_nat (a + len) /\
    getJointInfo e u i = Ok info /\ jointName info = name /\
    t = jointIndex info /\
    forall j, Z.of_nat a <= j < i ->
      exists info', getJointInfo e u j = Ok info' /\
                    jointName info' <> name.
Proof.
  revert a. induction len as [|len IH]; intros a; simpl.
  - discriminate.
  - intro H. apply bind_Ok_inv in H. destruct H as [info [Hinfo H]].
    destruct (String.eqb (jointName info) name) eqn:E.
    + injection H as <-. apply String.eqb_eq in E.
      exists (Z.of_nat a), info.
      split; [lia|]. split; [exact Hinfo|]. split; [exact E|].
      split; [reflexivity|]. intros j Hj. lia.
    + apply String.eqb_neq in E. apply IH in H.
      destruct H as [i [info' [Hi [Hi' [Hname [Ht Hbefore]]]]]].
      exists i, info'.
      split; [lia|]. split; [exact Hi'|]. split; [exact Hname|].
      split; [exact Ht|].
      intros j Hj. destruct (Z.eq_dec j (Z.of_nat a)) as [->|Hne].
      * exists info. split; assumption.
      * apply Hbefore. lia.
Qed.

(** A Robot built by name points at a joint that really carries the
    name: some joint index [i] below [num_joints] was answered by the
    engine with that name, [tool_idx] is the [jointIndex] of that answer,
    and every joint before [i] was answered with another name. *)
Theorem init_by_name_sound e u name r :
  init e u (Some name) = Ok r ->
  exists i info,
    0 <= i < num_joints r /\
    getJointInfo e u i = Ok info /\ jointName info = name /\
    tool_idx r = jointIndex info /\
    forall j, 0 <= j < i ->
      exists info', getJointInfo e u j = Ok info' /\
                    jointName info' <> name.
Proof.
  unfold init. intro H.
  apply bind_Ok_inv in H. destruct H as [n [_ H]].
  apply bind_Ok_inv in H. destruct H as [found [Hfound H]].
  destruct found as [t|]; [|discriminate H].
  injection H as <-. simpl.
  unfold range in Hfound. apply find_tool_joint_seq_Some in Hfound.
  destruct Hfound as [i [info [Hi [Hinfo [Hname [Ht Hbefore]]]]]].
  exists i, info.
  split; [lia|]. split; [exact Hinfo|]. split; [exact Hname|].
  split; [exact Ht|].
  intros j Hj. apply Hbefore. lia.
Qed.

Lemma init_by_name_sound_witness :
  exists i info,
    0 <= i < num_joints Demo.robot /\
    getJointInfo Demo.engine 0 i = Ok info /\
    jointName info = "joint2"%string /\
    tool_idx Demo.robot = jointIndex info /\
    forall j, 0 <= j < i ->
      exists info', getJointInfo Demo.engine 0 j = Ok info' /\
                    jointName info' <> "joint2"%string.
Proof.
  apply (init_by_name_sound Demo.engine 0 "joint2"%string Demo.robot).
  reflexivity.
Defined.

Lemma find_tool_joint_seq_first e u name (info : Z -> JointInfo) len a k :
  Z.of_nat a <= k < Z.of_nat (a + len) ->
  (forall i, Z.of_nat a <= i <= k -> getJointInfo e u i = Ok (info i)) ->
  jointName (info k) = name ->
  (forall j, Z.of_nat a <= j < k -> jointName (info j) <> name) ->
  find_tool_joint e u name (map Z.of_nat (seq a len))
    = Ok (Some (jointIndex (info k))).
Proof.
  revert a. induction len as [|len IH]; intros a Hk Hans Hname Hbefore.
  - lia.
  - simpl. rewrite (Hans (Z.of_nat a)) by lia. simpl.
    destruct (Z.eq_dec k (Z.of_nat a)) as [->|Hne].
    + rewrite Hname, String.eqb_refl. reflexivity.
    + assert (E : String.eqb (jointName (info (Z.of_nat a))) name = false).
      { apply String.eqb_neq. apply Hbefore. lia. }
      rewrite E. apply IH; try assumption; try lia.
      * intros i Hi. apply Hans. lia.
      * intros j Hj. apply Hbefore. lia.
Qed.

(** The name loop breaks at the first match: when joint [k] is the first
    with the name, the constructor succeeds with its [jointIndex] on the
    strength of the engine's answers for joints [0 .. k] alone; joints
    after [k] are not queried, so a failure there does not matter. *)
Theorem init_by_name_stops_at_match e u name n (info : Z -> JointInfo) k :
  Pyb.getNumJoints e u = Ok n ->
  0 <= k < n ->
  (forall i, 0 <= i <= k -> getJointInfo e u i = Ok (info i)) ->
  jointName (info k) = name ->
  (forall j, 0 <= j < k -> jointName (info j) <> name) ->
  init e u (Some name) =
    Ok {| uid := u; num_joints := n; _joint_indices := range n;
          tool_idx := jointIndex (info k) |}.
Proof.
  intros Hn Hk Hans Hname Hbefore. unfold init. rewrite Hn. simpl.
  unfold range at 1.
  rewrite (find_tool_joint_seq_first e u name info _ 0%nat k);
    [reflexivity | lia | exact Hans | exact Hname | exact Hbefore].
Qed.

Lemma init_by_name_stops_at_match_witness :
  getJointInfo Flaky.engine 0 2
    = Raise (EngineError "GetJointInfo failed.") /\
  init Flaky.engine 0 (Some "joint2"%string) =
    Ok {| uid := 0; num_joints := 3; _joint_indices := [0; 1; 2];
          tool_idx := 1 |}.
Proof.
  split; [reflexivity|].
  apply (init_by_name_stops_at_match Flaky.engine 0 "joint2"%string 3
           Demo.joint_info 1).
  - reflexivity.
  - lia.
  - intros i Hi. assert (i = 0 \/ i = 1) as [-> | ->] by lia; reflexivity.
  - reflexivity.
  - intros j Hj. assert (j = 0) as -> by lia. simpl. discriminate.
Defined.

Lemma find_tool_joint_seq_raise e u name (info : Z -> JointInfo) x len a k :
  Z.of_nat a <= k < Z.of_nat (a + len) ->
  (forall j, Z.of_nat a <= j < k ->
     getJointInfo e u j = Ok (info j) /\ jointName (info j) <> name) ->
  getJointInfo e u k = Raise x ->
  find_tool_joint e u name (map Z.of_nat (seq a len)) = Raise x.
Proof.
  revert a. induction len as [|len IH]; intros a Hk Hbefore Hfail.
  - lia.
  - simpl. destruct (Z.eq_dec k (Z.of_nat a)) as [Heq|Hne].
    + rewrite <- Heq, Hfail. reflexivity.
    + destruct (Hbefore (Z.of_nat a)) as [Hans Hname]; [lia|].
      rewrite Hans. simpl.
      apply String.eqb_neq in Hname. rewrite Hname.
      apply IH; try assumption; try lia.
      intros j Hj. apply Hbefore. lia.
Qed.

(** When the engine fails on the joint info of joint [k] and no earlier
    joint has the name, the constructor fails with the engine's own
    exception, not with the lookup error, and builds no Robot. *)
Theorem init_by_name_engine_failure e u name n (info : Z -> JointInfo) k x :
  Pyb.getNumJoints e u = Ok n ->
  0 <= k < n ->
  (forall j, 0 <= j < k ->
     getJointInfo e u j = Ok (info j) /\ jointName (info j) <> name) ->
  getJointInfo e u k = Raise x ->
  init e u (Some name) = Raise x.
Proof.
  intros Hn Hk Hbefore Hfail. unfold init. rewrite Hn. simpl.
  unfold range.
  rewrite (find_tool_joint_seq_raise e u name info x _ 0%nat k);
    [reflexivity | lia | exact Hbefore | exact Hfail].
Qed.

Lemma init_by_name_engine_failure_witness :
  init Flaky.engine 0 (Some "joint3"%string)
    = Raise (EngineError "GetJointInfo failed.").
Proof.
  apply (init_by_name_engine_failure Flaky.engine 0 "joint3"%string 3
           Demo.joint_info 2).
  - reflexivity.
  - lia.
  - intros j Hj.
    assert (j = 0 \/ j = 1) as [-> | ->] by lia;
      (split; [reflexivity | simpl; discriminate]).
  - reflexivity.
Defined.

(** ** More on link queries *)

Lemma get_link_pose_link_frame_witness :
  get_link_pose Demo.engine Demo.robot (Some 0)
    = Ok ([0; 0; 0]%float, [0; 0; 0; 1]%float).
Proof.
  apply (get_link_pose_link_frame Demo.engine Demo.robot (Some 0)
           (Demo.link_state false)).
  reflexivity.
Defined.

(** [get_link_velocity] asks the engine for the link state with link
    velocities (and without forward kinematics) and reads the last two
    items of the answer: the linear and angular velocity when the answer
    carries them.  The items are taken from the end of the tuple, so a
    six-item answer without velocities raises nothing: the link-frame
    position and orientation come back in their place. *)
Theorem get_link_velocity_last_items e r l st :
  Pyb.getLinkState e (uid r) (default l (tool_idx r)) true false = Ok st ->
  get_link_velocity e r l =
    Ok match Pyb.worldLinkVelocities st with
       | Some (lin, ang) => (lin, ang)
       | None => (Pyb.worldLinkFramePosition st,
                  Pyb.worldLinkFrameOrientation st)
       end.
Proof.
  intro H. unfold get_link_velocity. unfold default in H. rewrite H.
  cbn [Py.bind]. unfold Pyb.LinkState_tuple.
  destruct (Pyb.worldLinkVelocities st) as [[lin ang]|]; reflexivity.
Qed.

Lemma get_link_velocity_last_items_witness :
  get_link_velocity Demo.engine Demo.robot None
    = Ok ([0; 0; 0]%float, [0; 0; 0]%float).
Proof.
  apply (get_link_velocity_last_items Demo.engine Demo.robot None
           (Demo.link_state true)).
  reflexivity.
Defined.

(** ** More on the Jacobian *)

(** With [q] omitted, [jacobian] depends on the engine's joint states
    through the joint positions only: two engines with the same Jacobian
    routine whose joint-state answers agree on the positions give the
    same result, whatever the velocities, reaction forces and torques. *)
Theorem jacobian_default_q_positions_only e1 e2 r (lo : option Z)
    (oo : option vec) s1 s2 :
  Pyb.calculateJacobian e1 = Pyb.calculateJacobian e2 ->
  Pyb.getJointStates e1 (uid r) (_joint_indices r) = Ok s1 ->
  Pyb.getJointStates e2 (uid r) (_joint_indices r) = Ok s2 ->
  map Pyb.jointPosition s1 = map Pyb.jointPosition s2 ->
  jacobian e1 r None lo oo = jacobian e2 r None lo oo /\
  jacobian e1 r None lo oo
    = jacobian e1 r (Some (map Pyb.jointPosition s1)) lo oo.
Proof.
  intros Hroutine H1 H2 Hpos.
  unfold jacobian, jacobian_q, get_joint_states.
  rewrite H1, H2, Hroutine. cbn [Py.bind fst]. rewrite Hpos.
  split; reflexivity.
Qed.

Lemma jacobian_default_q_positions_only_witness :
  jacobian Demo.engine Demo.robot None None None
    = jacobian Flaky.moving_engine Demo.robot None None None.
Proof.
  destruct (jacobian_default_q_positions_only
              Demo.engine Flaky.moving_engine Demo.robot None None
              (map Demo.joint_state [0; 1]) (map Flaky.moving_state [0; 1])
              eq_refl eq_refl eq_refl eq_refl) as [Hsame _].
  exact Hsame.
Defined.

(** ** More on joint reset *)

Lemma combine_app_excess {A B} (a : list A) (b extra : list B) :
  (List.length a <= List.length b)%nat ->
  combine a (b ++ extra) = combine a b.
Proof.
  revert b. induction a as [|x a IH]; intros [|y b] H; simpl in *;
    try reflexivity; try lia.
  f_equal. apply IH. lia.
Qed.

(** [reset_joint_configuration] sends reset commands only, all for the
    Robot's own body, each for a joint index below [num_joints], and no
    joint twice. *)
Theorem reset_joint_configuration_commands e u name r (q : vec) :
  init e u name = Ok r ->
  Forall (fun c => exists i a,
            c = Pyb.resetJointState (uid r) i a /\ 0 <= i < num_joints r)
         (reset_joint_configuration r q) /\
  NoDup (joints_acted_on (reset_joint_configuration r q)).
Proof.
  intro Hinit. apply init_Ok_inv in Hinit.
  destruct Hinit as [n [_ [Hge [_ [Hnum Hidx]]]]].
  unfold reset_joint_configuration, zip. rewrite Hidx, Hnum. split.
  - apply Forall_forall. intros c Hc.
    apply in_map_iff in Hc. destruct Hc as [[i a] [<- Hin]].
    exists i, a. split; [reflexivity|].
    apply in_combine_l in Hin. apply in_range. exact Hin.
  - rewrite reset_joints_acted_on, map_fst_combine, range_firstn.
    apply range_NoDup.
Qed.

Lemma reset_joint_configuration_commands_witness :
  Forall (fun c => exists i a,
            c = Pyb.resetJointState (uid Demo.robot) i a /\
            0 <= i < num_joints Demo.robot)
         (reset_joint_configuration Demo.robot [1; 2; 3]%float) /\
  NoDup (joints_acted_on
           (reset_joint_configuration Demo.robot [1; 2; 3]%float)).
Proof.
  apply (reset_joint_configuration_commands Demo.engine 0 None).
  reflexivity.
Defined.

(** Values beyond the [num_joints]-th are ignored: a vector with
    [num_joints] entries resets every joint, joint [i] to entry [i], and
    appending further entries changes nothing. *)
Theorem reset_joint_configuration_excess e u name r (q extra : vec) :
  init e u name = Ok r ->
  len q = num_joints r ->
  reset_joint_configuration r (q ++ extra) = reset_joint_configuration r q /\
  joints_acted_on (reset_joint_configuration r q) = _joint_indices r /\
  forall i a, nth_error q i = Some a ->
    nth_error (reset_joint_configuration r (q ++ extra)) i
      = Some (Pyb.resetJointState (uid r) (Z.of_nat i) a).
Proof.
  intros Hinit Hlen. apply init_Ok_inv in Hinit.
  destruct Hinit as [n [_ [Hge [_ [Hnum Hidx]]]]].
  unfold len in Hlen.
  assert (Hle : (List.length (range n) <= List.length q)%nat)
    by (rewrite range_length; lia).
  unfold reset_joint_configuration, zip. rewrite Hidx.
  rewrite (combine_app_excess _ _ _ Hle).
  split; [reflexivity|]. split.
  - rewrite reset_joints_acted_on, map_fst_combine.
    apply firstn_all2. exact Hle.
  - intros i a Ha. rewrite nth_error_map.
    assert (Hi : 0 <= Z.of_nat i < n).
    { assert (i < List.length q)%nat
        by (apply nth_error_Some; rewrite Ha; discriminate).
      lia. }
    pose proof (range_nth_error n (Z.of_nat i) Hi) as Hr.
    rewrite Nat2Z.id in Hr.
    rewrite (nth_error_combine_Some _ _ _ _ _ Hr Ha). reflexivity.
Qed.

Lemma reset_joint_configuration_excess_witness :
  reset_joint_configuration Demo.robot ([1; 2] ++ [3])%float
    = [ Pyb.resetJointState 0 0 1%float; Pyb.resetJointState 0 1 2%float ].
Proof.
  destruct (reset_joint_configuration_excess Demo.engine 0 None Demo.robot
              [1; 2]%float [3%float] eq_refl eq_refl) as [Hsame _].
  rewrite Hsame. reflexivity.
Defined.

(** ** More on named tuples *)

Lemma nt_new_wrong_arity T args :
  List.length args <> List.length (field_names T) ->
  exists msg, nt_new T args = Raise (TypeError msg).
Proof.
  intro H. unfold nt_new.
  apply Nat.eqb_neq in H. rewrite H. eexists. reflexivity.
Qed.

Lemma comprehension_nt_new_malformed T (raw : list (list pyval)) :
  Exists (fun p => List.length p <> List.length (field_names T)) raw ->
  exists msg, comprehension (nt_new T) raw = Raise (TypeError msg).
Proof.
  induction raw as [|p rest IH]; intro H.
  - inversion H.
  - simpl. destruct (Nat.eq_dec (List.length p) (List.length (field_names T)))
      as [Heq|Hne].
    + unfold nt_new at 1. rewrite Heq, Nat.eqb_refl. cbn [Py.bind].
      inversion H as [? ? Hbad|? ? Hrest]; subst; [contradiction|].
      destruct (IH Hrest) as [msg Hmsg]. rewrite Hmsg.
      exists msg. reflexivity.
    + destruct (nt_new_wrong_arity T p Hne) as [msg Hmsg]. rewrite Hmsg.
      exists msg. reflexivity.
Qed.

(** [getClosestPoints] returns one [ContactPoint] record per point pair
    the engine returns, in the engine's order, with the same 14 fields as
    a contact, bound by position; no pair within the distance gives the
    empty list. *)
Theorem getClosestPoints_list e bodyA bodyB distance linkA linkB client raw :
  Pyb.getClosestPoints e bodyA bodyB distance linkA linkB client = Ok raw ->
  Forall (fun p => List.length p = 14%nat) raw ->
  (raw = [] ->
   getClosestPoints e bodyA bodyB distance linkA linkB client = Ok []) /\
  exists pts,
    getClosestPoints e bodyA bodyB distance linkA linkB client = Ok pts /\
    map nt_items pts = raw /\
    Forall (fun pt => nt_type pt = ContactPoint) pts /\
    forall k pt i name,
      nth_error pts k = Some pt ->
      nth_error (field_names ContactPoint) i = Some name ->
      exists p v, nth_error raw k = Some p /\ nth_error p i = Some v /\
                  nt_getattr pt name = Ok v.
Proof.
  intros Hraw Hlen.
  unfold getClosestPoints. rewrite Hraw. cbn [Py.bind].
  split; [intros ->; reflexivity|].
  rewrite (comprehension_nt_new ContactPoint raw Hlen).
  eexists. split; [reflexivity|].
  split; [rewrite map_map; simpl; apply map_id|].
  split; [apply Forall_map, Forall_forall; intros; reflexivity|].
  intros k pt i name Hk Hi.
  rewrite nth_error_map in Hk.
  destruct (nth_error raw k) as [p|] eqn:Hp; [|discriminate Hk].
  simpl in Hk. injection Hk as <-.
  assert (Hplen : List.length p = List.length (field_names ContactPoint)).
  { rewrite Forall_forall in Hlen. apply Hlen. apply (nth_error_In _ _ Hp). }
  exists p.
  destruct (nth_error p i) as [v|] eqn:Hv.
  - exists v. split; [reflexivity|]. split; [reflexivity|].
    unfold nt_getattr. simpl nt_type. simpl nt_items.
    rewrite (index_of_nth _ _ _ ContactPoint_fields_NoDup Hi), Hv.
    reflexivity.
  - exfalso. apply nth_error_None in Hv.
    assert (i < List.length (field_names ContactPoint))%nat
      by (apply nth_error_Some; rewrite Hi; discriminate).
    lia.
Qed.

Lemma getClosestPoints_list_witness :
  exists pts,
    getClosestPoints Probe.engine 0 1 0.5%float (-2) (-2) 0 = Ok pts /\
    map nt_items pts = [Demo.contact_raw; Probe.closest_raw] /\
    forall pt, nth_error pts 1 = Some pt ->
      nt_getattr pt "linkIndexA" = Ok (PyInt 1) /\
      nt_getattr pt "contactDistance" = Ok (PyFloat 0.25).
Proof.
  assert (F : Forall (fun p : list pyval => List.length p = 14%nat)
                [Demo.contact_raw; Probe.closest_raw]).
  { repeat (constructor; [reflexivity|]). constructor. }
  destruct (getClosestPoints_list Probe.engine 0 1 0.5%float (-2) (-2) 0
              [Demo.contact_raw; Probe.closest_raw] eq_refl F)
    as [_ [pts [Hpts [Hitems [_ Hfield]]]]].
  exists pts. split; [exact Hpts|]. split; [exact Hitems|].
  intros pt Hpt. split.
  - destruct (Hfield 1%nat pt 3%nat "linkIndexA"%string Hpt eq_refl)
      as [p [v [Hp [Hv Hget]]]].
    simpl in Hp. injection Hp as <-. simpl in Hv. injection Hv as <-.
    exact Hget.
  - destruct (Hfield 1%nat pt 8%nat "contactDistance"%string Hpt eq_refl)
      as [p [v [Hp [Hv Hget]]]].
    simpl in Hp. injection Hp as <-. simpl in Hv. injection Hv as <-.
    exact Hget.
Defined.

(** When the engine's dynamics tuple does not have exactly 12 items,
    [getDynamicsInfo] raises [TypeError]: no record with missing or
    shifted fields is returned. *)
Theorem getDynamicsInfo_wrong_arity e body link client raw :
  Pyb.getDynamicsInfo e body link client = Ok raw ->
  List.length raw <> 12%nat ->
  exists msg, getDynamicsInfo e body link client = Raise (TypeError msg).
Proof.
  intros Hraw Hlen. unfold getDynamicsInfo. rewrite Hraw. cbn [Py.bind].
  apply nt_new_wrong_arity. exact Hlen.
Qed.

Lemma getDynamicsInfo_wrong_arity_witness :
  exists msg, getDynamicsInfo Flaky.engine 0 0 0 = Raise (TypeError msg).
Proof.
  apply (getDynamicsInfo_wrong_arity Flaky.engine 0 0 0
           Flaky.short_dynamics_raw).
  - reflexivity.
  - simpl. discriminate.
Defined.

(** One point whose tuple does not have exactly 14 items makes the whole
    of [getContactPoints], and likewise [getClosestPoints], raise
    [TypeError]: the well-formed points before it are not returned. *)
Theorem contact_queries_malformed_point e raw :
  Exists (fun p => List.length p <> 14%nat) raw ->
  (forall bodyA bodyB linkA linkB client,
     Pyb.getContactPoints e bodyA bodyB linkA linkB client = Ok raw ->
     exists msg,
       getContactPoints e bodyA bodyB linkA linkB client
         = Raise (TypeError msg)) /\
  (forall bodyA bodyB distance linkA linkB client,
     Pyb.getClosestPoints e bodyA bodyB distance linkA linkB client
       = Ok raw ->
     exists msg,
       getClosestPoints e bodyA bodyB distance linkA linkB client
         = Raise (TypeError msg)).
Proof.
  intro Hbad.
  pose proof (comprehension_nt_new_malformed ContactPoint raw Hbad)
    as [msg Hmsg].
  split.
  - intros bodyA bodyB linkA linkB client Hraw.
    unfold getContactPoints. rewrite Hraw. cbn [Py.bind].
    exists msg. exact Hmsg.
  - intros bodyA bodyB distance linkA linkB client Hraw.
    unfold getClosestPoints. rewrite Hraw. cbn [Py.bind].
    exists msg. exact Hmsg.
Qed.

Lemma contact_queries_malformed_point_witness :
  (exists msg,
     getContactPoints Flaky.engine 0 (-1) (-2) (-2) 0
       = Raise (TypeError msg)) /\
  (exists msg,
     getClosestPoints Flaky.engine 0 1 0.5%float (-2) (-2) 0
       = Raise (TypeError msg)).
Proof.
  assert (Hbad : Exists (fun p : list pyval => List.length p <> 14%nat)
                   Flaky.points_raw).
  { apply Exists_cons_tl. apply Exists_cons_hd. simpl. discriminate. }
  destruct (contact_queries_malformed_point Flaky.engine Flaky.points_raw
              Hbad) as [Hcontact Hclosest].
  split.
  - apply Hcontact. reflexivity.
  - apply Hclosest. reflexivity.
Defined.

(** The local inertial position, item 3 of the dynamics tuple, is
    reached under the field name as the source spells it,
    [localInerialPos]; [localInertialPos] is not a field of the record
    and asking for it raises [AttributeError]. *)
Theorem DynamicsInfo_inertial_position_field e body link client raw :
  Pyb.getDynamicsInfo e body link client = Ok raw ->
  List.length raw = 12%nat ->
  exists d v,
    getDynamicsInfo e body link client = Ok d /\
    nth_error raw 3 = Some v /\
    nt_getattr d "localInerialPos" = Ok v /\
    nt_getattr d "localInertialPos"
      = Raise (AttributeError "localInertialPos").
Proof.
  intros Hraw Hlen.
  unfold getDynamicsInfo. rewrite Hraw. cbn [Py.bind].
  destruct (nt_new_positional DynamicsInfo raw DynamicsInfo_fields_NoDup Hlen)
    as [d [Hd [Htype [_ Hfield]]]].
  destruct (Hfield 3%nat "localInerialPos"%string eq_refl) as [v [Hv Hget]].
  exists d, v. split; [exact Hd|]. split; [exact Hv|].
  split; [exact Hget|].
  unfold nt_getattr. rewrite Htype. reflexivity.
Qed.

Lemma DynamicsInfo_inertial_position_field_witness :
  exists d v,
    getDynamicsInfo Demo.engine 0 1 0 = Ok d /\
    nth_error Demo.dynamics_raw 3 = Some v /\
    nt_getattr d "localInerialPos" = Ok v /\
    nt_getattr d "localInertialPos"
      = Raise (AttributeError "localInertialPos").
Proof.
  apply (DynamicsInfo_inertial_position_field Demo.engine 0 1 0
           Demo.dynamics_raw); reflexivity.
Defined.

(** ** The default end effector *)


